(** * validator.py : YAML documents checked against JSON schemas

    A shallow embedding of [src/validator.py]: the schema path resolver
    [infer_schema_path], the class [YamlSchemaValidator] (its two loaders,
    [validate] and [validate_and_report]) and the command line entry [main].

    Printing, the calls into the validation engine and the exit status are
    effects of the program; they are kept in an explicit trace. *)

From Stdlib Require Import List String Ascii Bool Arith ZArith QArith Lia.
From Stdlib Require Import DecimalString.
Import ListNotations.
Close Scope Q_scope.
Local Open Scope string_scope.
Local Open Scope list_scope.

(** ** Parsed documents *)

(** What [yaml.safe_load] and [json.load] hand back: [None], booleans,
    integers, floats, strings, lists and dicts whose keys keep the order of
    the file.  A float is kept as the rational it denotes; the timestamps,
    binaries and sets of YAML, and keys that are not strings, are left out. *)
#[local] Unset Elimination Schemes.
Inductive value : Type :=
| VNull
| VBool (b : bool)
| VInt (n : Z)
| VFloat (q : Q)
| VStr (s : string)
| VSeq (items : list value)
| VMap (entries : list (string * value)).
#[local] Set Elimination Schemes.

(** Python truth value of a parsed document, the test behind [not self.data]. *)
Definition truthy (v : value) : bool :=
  match v with
  | VNull => false
  | VBool b => b
  | VInt n => negb (n =? 0)%Z
  | VFloat q => negb (Qnum q =? 0)%Z
  | VStr s => negb (s =? "")
  | VSeq items => match items with [] => false | _ :: _ => true end
  | VMap entries => match entries with [] => false | _ :: _ => true end
  end.

(** A step of a failure path or of a schema path: a key or an index. *)
Inductive segment : Type :=
| Key (k : string)
| Index (i : nat).

(** [str(p)] on a path segment. *)
Definition str_segment (p : segment) : string :=
  match p with
  | Key k => k
  | Index i => NilEmpty.string_of_uint (Nat.to_uint i)
  end.

(** [sep.join(xs)] *)
Fixpoint join (sep : string) (xs : list string) : string :=
  match xs with
  | [] => ""
  | [x] => x
  | x :: rest => x ++ sep ++ join sep rest
  end.

(** ** Paths *)

(** A [pathlib.Path] is kept as its [parts]. *)
Definition Path : Type := list string.

Fixpoint split_on (sep : ascii) (s : string) : list string :=
  match s with
  | EmptyString => [EmptyString]
  | String c rest =>
      let parts := split_on sep rest in
      if Ascii.eqb c sep then EmptyString :: parts
      else match parts with
           | [] => [String c EmptyString]
           | p :: ps => String c p :: ps
           end
  end.

(** The root of a POSIX path: two leading slashes are kept, one or three and
    more collapse to a single one. *)
Definition path_root (s : string) : string :=
  match s with
  | String "/" (String "/" (String "/" _)) => "/"
  | String "/" (String "/" _) => "//"
  | String "/" _ => "/"
  | _ => ""
  end.

(** [Path(s).parts] : empty components and ["."] are dropped. *)
Definition Path_of (s : string) : Path :=
  let tail :=
    filter (fun x => negb (x =? "") && negb (x =? ".")) (split_on "/" s) in
  match path_root s with
  | EmptyString => tail
  | root => root :: tail
  end.

(** [c in s] for a character. *)
Fixpoint occurs (c : ascii) (s : string) : bool :=
  match s with
  | EmptyString => false
  | String c' rest => Ascii.eqb c' c || occurs c rest
  end.

(** A string that can stand as one component of a path. *)
Definition is_component (s : string) : bool :=
  negb (s =? "") && negb (s =? ".") && negb (occurs "/" s).

(** [str(path)] *)
Definition Path_str (p : Path) : string :=
  match p with
  | [] => "."
  | first :: tail =>
      if (first =? "/") || (first =? "//") then first ++ join "/" tail
      else join "/" p
  end.

(** ** Exceptions and results *)

Inductive exn : Type :=
| IndexError
| ValueError.

Inductive result (A : Type) : Type :=
| Return (a : A)
| Raise (e : exn).
Arguments Return {A} a.
Arguments Raise {A} e.

(** ** The schema path resolver *)

(** [x in parts] *)
Definition contains (x : string) (parts : Path) : bool :=
  existsb (String.eqb x) parts.

(** [parts.index(x)] : the position of the first occurrence. *)
Fixpoint index (x : string) (parts : Path) : result nat :=
  match parts with
  | [] => Raise ValueError
  | p :: rest =>
      if p =? x then Return 0
      else match index x rest with
           | Return i => Return (S i)
           | Raise e => Raise e
           end
  end.

(** [parts[i]] for a non-negative [i]. *)
Definition getitem (parts : Path) (i : nat) : result string :=
  match nth_error parts i with
  | Some p => Return p
  | None => Raise IndexError
  end.

(** The f-string ["schemas/{category}/{category}.schema.json"]. *)
Definition schema_name (category : string) : string :=
  "schemas/" ++ category ++ "/" ++ category ++ ".schema.json".

Definition infer_schema_path (yaml_file : Path) : result (option Path) :=
  let parts := yaml_file in
  if contains "samples" parts then
    match index "samples" parts with
    | Raise e => Raise e
    | Return idx =>
        match getitem parts (idx + 1) with
        | Raise e => Raise e
        | Return category => Return (Some (Path_of (schema_name category)))
        end
    end
  else Return None.

(** Somewhere in [parts], [x] is directly followed by [next]. *)
Definition followed_by (x next : string) (parts : Path) : Prop :=
  exists pre post, parts = pre ++ x :: next :: post.

(** ** The validation engine

    [validator.py] imports its engine, [jsonschema.validate]; the engine is
    not part of the repository.  What the program sees of a call is one of
    three things: a normal return, a [ValidationError] carrying a message, a
    path into the document and a path into the schema, or a [SchemaError]
    carrying a message.  These are the two exceptions [validate] handles;
    an engine that raises anything else is left out. *)

Inductive engine_result : Type :=
| Passed
| ValidationError (message : string) (path schema_path : list segment)
| SchemaError (message : string).

Module Engine.

Record violation : Type := Violation {
  message : string;
  failurePath : list segment;
  schemaPath : list segment
}.

(** A walk of one schema subtree over a document subtree, with the failure
    path and the schema path walked so far. *)
Definition checker : Type :=
  value -> list segment -> list segment -> option violation.

Definition orelse (a b : option violation) : option violation :=
  match a with
  | Some v => Some v
  | None => b
  end.

Fixpoint lookup {A : Type} (k : string) (kvs : list (string * A)) : option A :=
  match kvs with
  | [] => None
  | (k', a) :: rest => if k' =? k then Some a else lookup k rest
  end.

Definition type_names : list string :=
  ["null"; "boolean"; "integer"; "number"; "string"; "array"; "object"].

(** Modelled from the spec: the scalar kind match of [type] (section 4.4
    and the design notes), part of the engine the repository does not
    define.  [integer] and [number] are told apart by the tag of the value:
    every integer is a number, no float is an integer. *)
Definition has_type (name : string) (v : value) : bool :=
  match v with
  | VNull => name =? "null"
  | VBool _ => name =? "boolean"
  | VInt _ => (name =? "integer") || (name =? "number")
  | VFloat _ => name =? "number"
  | VStr _ => name =? "string"
  | VSeq _ => name =? "array"
  | VMap _ => name =? "object"
  end.

(** Modelled from the spec: the deep structural equality of parsed values
    behind [enum] and [const] (section 4.4), part of the engine the
    repository does not define.  Numbers are compared by value, mappings
    key by key. *)
Fixpoint value_eqb (a b : value) {struct a} : bool :=
  match a, b with
  | VNull, VNull => true
  | VBool x, VBool y => Bool.eqb x y
  | VInt x, VInt y => (x =? y)%Z
  | VInt x, VFloat y => Qeq_bool (inject_Z x) y
  | VFloat x, VInt y => Qeq_bool x (inject_Z y)
  | VFloat x, VFloat y => Qeq_bool x y
  | VStr x, VStr y => x =? y
  | VSeq xs, VSeq ys =>
      (fix all2 (xs : list value) (ys : list value) {struct xs} : bool :=
         match xs, ys with
         | [], [] => true
         | x :: xs', y :: ys' => value_eqb x y && all2 xs' ys'
         | _, _ => false
         end) xs ys
  | VMap xs, VMap ys =>
      (List.length xs =? List.length ys)%nat &&
      (fix every (xs : list (string * value)) : bool :=
         match xs with
         | [] => true
         | (k, x) :: xs' =>
             match lookup k ys with
             | Some y => value_eqb x y && every xs'
             | None => false
             end
         end) xs
  | _, _ => false
  end.

Definition strings_of (v : value) : list string :=
  match v with
  | VSeq items =>
      flat_map (fun x => match x with VStr s => [s] | _ => [] end) items
  | VStr s => [s]
  | _ => []
  end.

Definition keys_of (v : option value) : list string :=
  match v with
  | Some (VMap entries) => map fst entries
  | _ => []
  end.

Definition tuple_length (v : option value) : option nat :=
  match v with
  | Some (VSeq schemas) => Some (List.length schemas)
  | _ => None
  end.

Definition passes (c : checker) (doc : value) (path spath : list segment) : bool :=
  match c doc path spath with
  | None => true
  | Some _ => false
  end.

(** Modelled from the spec: [required], mapping key presence (section 4.4,
    step 1); the first missing key in the order of the schema is reported
    at the mapping node. *)
Fixpoint check_required (names : list string) (entries : list (string * value))
    (path spath : list segment) : option violation :=
  match names with
  | [] => None
  | name :: rest =>
      match lookup name entries with
      | Some _ => check_required rest entries path spath
      | None =>
          Some (Violation ("'" ++ name ++ "' is a required property") path
                  (spath ++ [Key "required"]))
      end
  end.

(** Modelled from the spec: [properties] (section 4.4, step 1); the keys of
    the document in declaration order, each against the subschema of its
    name. *)
Fixpoint check_properties (props : list (string * checker))
    (entries : list (string * value)) (path spath : list segment)
    : option violation :=
  match entries with
  | [] => None
  | (k, dv) :: rest =>
      orelse
        match lookup k props with
        | Some c => c dv (path ++ [Key k]) (spath ++ [Key "properties"; Key k])
        | None => None
        end
        (check_properties props rest path spath)
  end.

(** Modelled from the spec: [additionalProperties] (section 4.4, step 1);
    the keys that [properties] does not name. *)
Fixpoint check_additional (named : list string) (c : checker)
    (entries : list (string * value)) (path spath : list segment)
    : option violation :=
  match entries with
  | [] => None
  | (k, dv) :: rest =>
      orelse
        (if existsb (String.eqb k) named then None
         else c dv (path ++ [Key k]) (spath ++ [Key "additionalProperties"]))
        (check_additional named c rest path spath)
  end.

(** Modelled from the spec: [items] with one subschema, and
    [additionalItems] (section 4.4, step 1); every element from index [i]
    on. *)
Fixpoint check_items (c : checker) (keyword : string) (i : nat)
    (elements : list value) (path spath : list segment) : option violation :=
  match elements with
  | [] => None
  | x :: rest =>
      orelse (c x (path ++ [Index i]) (spath ++ [Key keyword]))
             (check_items c keyword (S i) rest path spath)
  end.

(** Modelled from the spec: [items] with a list of subschemas (section 4.4,
    step 1); element [i] against subschema [i]. *)
Fixpoint check_tuple (cs : list checker) (i : nat) (elements : list value)
    (path spath : list segment) : option violation :=
  match cs, elements with
  | c :: cs', x :: rest =>
      orelse (c x (path ++ [Index i]) (spath ++ [Key "items"; Index i]))
             (check_tuple cs' (S i) rest path spath)
  | _, _ => None
  end.

(** Modelled from the spec: [allOf] (section 4.4, step 1); the branches in
    declaration order. *)
Fixpoint check_all (cs : list checker) (i : nat) (doc : value)
    (path spath : list segment) : option violation :=
  match cs with
  | [] => None
  | c :: cs' =>
      orelse (c doc path (spath ++ [Key "allOf"; Index i]))
             (check_all cs' (S i) doc path spath)
  end.

Definition count_passing (cs : list checker) (doc : value)
    (path spath : list segment) : nat :=
  List.length (filter (fun c => passes c doc path spath) cs).

Section Walk.

(** The regular-expression search behind [pattern] and the checks behind
    [format] belong to the dialect of the constraint; they are taken as
    given. *)
Variable re_search : string -> string -> bool.
Variable format_ok : string -> string -> bool.

(** Modelled from the spec: the structural recursive descent of the
    Validation Engine (section 4.4, steps 1 to 3), which the program calls
    as [jsonschema.validate] and which is not part of the repository.  The
    keywords of a schema are evaluated in declaration order and the first
    violation met is the one returned. *)
Fixpoint check (schema : value) : checker :=
  fun doc path spath =>
    match schema with
    | VBool true => None
    | VBool false =>
        Some (Violation "False schema does not allow the value" path spath)
    | VMap keywords =>
        (fix each (kws : list (string * value)) : option violation :=
           match kws with
           | [] => None
           | (k, sv) :: rest =>
               orelse
                 (if k =? "type" then
                    if existsb (fun t => has_type t doc) (strings_of sv) then None
                    else Some (Violation
                                 ("value is not of type " ++ join ", " (strings_of sv))
                                 path (spath ++ [Key "type"]))
                  else if k =? "required" then
                    match doc with
                    | VMap entries => check_required (strings_of sv) entries path spath
                    | _ => None
                    end
                  else if k =? "properties" then
                    match sv, doc with
                    | VMap props, VMap entries =>
                        check_properties
                          (map (fun kv => let '(name, s) := kv in (name, check s)) props)
                          entries path spath
                    | _, _ => None
                    end
                  else if k =? "additionalProperties" then
                    match doc with
                    | VMap entries =>
                        check_additional (keys_of (lookup "properties" keywords))
                          (check sv) entries path spath
                    | _ => None
                    end
                  else if k =? "items" then
                    match sv, doc with
                    | VSeq schemas, VSeq elements =>
                        check_tuple (map check schemas) 0 elements path spath
                    | _, VSeq elements =>
                        check_items (check sv) "items" 0 elements path spath
                    | _, _ => None
                    end
                  else if k =? "additionalItems" then
                    match tuple_length (lookup "items" keywords), doc with
                    | Some n, VSeq elements =>
                        check_items (check sv) "additionalItems" n
                          (skipn n elements) path spath
                    | _, _ => None
                    end
                  else if k =? "enum" then
                    match sv with
                    | VSeq options =>
                        if existsb (value_eqb doc) options then None
                        else Some (Violation "value is not one of the enumerated values"
                                     path (spath ++ [Key "enum"]))
                    | _ => None
                    end
                  else if k =? "const" then
                    if value_eqb doc sv then None
                    else Some (Violation "value is not the expected constant"
                                 path (spath ++ [Key "const"]))
                  else if k =? "pattern" then
                    match sv, doc with
                    | VStr re, VStr s =>
                        if re_search re s then None
                        else Some (Violation ("value does not match '" ++ re ++ "'")
                                     path (spath ++ [Key "pattern"]))
                    | _, _ => None
                    end
                  else if k =? "format" then
                    match sv, doc with
                    | VStr f, VStr s =>
                        if format_ok f s then None
                        else Some (Violation ("value is not a '" ++ f ++ "'")
                                     path (spath ++ [Key "format"]))
                    | _, _ => None
                    end
                  else if k =? "allOf" then
                    match sv with
                    | VSeq branches => check_all (map check branches) 0 doc path spath
                    | _ => None
                    end
                  else if k =? "anyOf" then
                    match sv with
                    | VSeq branches =>
                        if (0 <? count_passing (map check branches) doc path spath)%nat
                        then None
                        else Some (Violation
                                     "value is not valid under any of the given schemas"
                                     path (spath ++ [Key "anyOf"]))
                    | _ => None
                    end
                  else if k =? "oneOf" then
                    match sv with
                    | VSeq branches =>
                        if (count_passing (map check branches) doc path spath =? 1)%nat
                        then None
                        else Some (Violation
                                     "value is not valid under exactly one of the given schemas"
                                     path (spath ++ [Key "oneOf"]))
                    | _ => None
                    end
                  else if k =? "not" then
                    if passes (check sv) doc path spath
                    then Some (Violation "value should not be valid under the schema"
                                 path (spath ++ [Key "not"]))
                    else None
                  else None)
                 (each rest)
           end) keywords
    | _ => None
    end.


(** Modelled from the spec: the detection of a schema that is malformed for
    the vocabulary (section 4.4, step 4), part of the engine the repository
    does not define.  A [type] that names no known type, a combinator
    without a subschema or with something that is no schema in its place,
    and keyword values of the wrong shape are reported; the answer is the
    message of the first defect, in declaration order. *)
Fixpoint check_schema (schema : value) : option string :=
  let first (a b : option string) :=
    match a with Some m => Some m | None => b end in
  let each_schema :=
    fix each_schema (subs : list value) : option string :=
      match subs with
      | [] => None
      | s :: rest => first (check_schema s) (each_schema rest)
      end in
  match schema with
  | VBool _ => None
  | VMap keywords =>
      (fix each (kws : list (string * value)) : option string :=
         match kws with
         | [] => None
         | (k, sv) :: rest =>
             first
               (if k =? "type" then
                  match sv with
                  | VStr t =>
                      if existsb (String.eqb t) type_names then None
                      else Some ("'" ++ t ++ "' is not a valid type")%string
                  | VSeq names =>
                      if forallb
                           (fun n => match n with
                                     | VStr t => existsb (String.eqb t) type_names
                                     | _ => false
                                     end) names
                      then None
                      else Some "'type' lists a value that is not a valid type"
                  | _ => Some "'type' is neither a type name nor a list of type names"
                  end
                else if k =? "required" then
                  match sv with
                  | VSeq names =>
                      if forallb (fun n => match n with VStr _ => true | _ => false end) names
                      then None
                      else Some "'required' lists a value that is not a string"
                  | _ => Some "'required' is not a list"
                  end
                else if k =? "properties" then
                  match sv with
                  | VMap props =>
                      (fix each_prop (ps : list (string * value)) : option string :=
                         match ps with
                         | [] => None
                         | (_, s) :: ps' => first (check_schema s) (each_prop ps')
                         end) props
                  | _ => Some "'properties' is not an object"
                  end
                else if (k =? "additionalProperties") || (k =? "additionalItems")
                        || (k =? "not") then
                  check_schema sv
                else if k =? "items" then
                  match sv with
                  | VSeq schemas => each_schema schemas
                  | _ => check_schema sv
                  end
                else if k =? "enum" then
                  match sv with
                  | VSeq _ => None
                  | _ => Some "'enum' is not a list"
                  end
                else if (k =? "pattern") || (k =? "format") then
                  match sv with
                  | VStr _ => None
                  | _ => Some ("'" ++ k ++ "' is not a string")%string
                  end
                else if (k =? "allOf") || (k =? "anyOf") || (k =? "oneOf") then
                  match sv with
                  | VSeq [] => Some ("'" ++ k ++ "' has no subschema")%string
                  | VSeq branches => each_schema branches
                  | _ => Some ("'" ++ k ++ "' is not a list of subschemas")%string
                  end
                else None)
               (each rest)
         end) keywords
  | _ => Some "a schema is neither an object nor a boolean"
  end.

(** Modelled from the spec: the contract
    [validate(doc, schema) -> ValidationOutcome] of the Validation Engine
    (section 4.4), as the program observes it through [jsonschema.validate]:
    a malformed schema is a [SchemaError], the first violation of the walk
    is a [ValidationError], anything else passes. *)
Definition validate (instance schema : value) : engine_result :=
  match check_schema schema with
  | Some msg => SchemaError msg
  | None =>
      match check schema instance [] [] with
      | Some v => ValidationError (message v) (failurePath v) (schemaPath v)
      | None => Passed
      end
  end.

End Walk.

End Engine.

(** ** Effects

    What a run does besides computing: lines printed on standard output,
    lines echoed on standard error, and calls into the validation engine.
    A computation returns its value together with the trace it left. *)

Inductive event : Type :=
| Print (text : string)
| EchoErr (text : string)
| EngineCall (instance schema : value).

Definition IO (A : Type) : Type := (A * list event)%type.

Definition ret {A : Type} (a : A) : IO A := (a, []).

Definition bind {A B : Type} (m : IO A) (k : A -> IO B) : IO B :=
  let (a, before) := m in
  let (b, after) := k a in
  (b, before ++ after).

Declare Scope io_scope.
Delimit Scope io_scope with io.
Notation "x <- m ;; k" := (bind m (fun x => k))
  (at level 61, m at next level, right associativity) : io_scope.
Notation "m ;; k" := (bind m (fun _ => k))
  (at level 61, right associativity) : io_scope.
Local Open Scope io_scope.

Definition print (text : string) : IO unit := (tt, [Print text]).
Definition echo_err (text : string) : IO unit := (tt, [EchoErr text]).
Definition emit (e : event) : IO unit := (tt, [e]).

Definition value_of {A : Type} (m : IO A) : A := fst m.
Definition trace_of {A : Type} (m : IO A) : list event := snd m.

Definition is_engine_call (e : event) : bool :=
  match e with
  | EngineCall _ _ => true
  | _ => false
  end.

(** The engine was entered during the run. *)
Definition engine_called {A : Type} (m : IO A) : bool :=
  existsb is_engine_call (trace_of m).

(** The lines of standard output, in order. *)
Definition printed {A : Type} (m : IO A) : list string :=
  flat_map (fun e => match e with Print t => [t] | _ => [] end) (trace_of m).

(** ** Files and parsers *)

(** [open(path)] followed by reading the file. *)
Inductive open_result : Type :=
| FileNotFound
| OpenFailed (reason : string)
| Content (text : string).

(** A parser run on the text of a file: the parsed value, the syntax error
    of the parser ([yaml.YAMLError], [json.JSONDecodeError]) or any other
    exception, each with its text. *)
Inductive parse_result : Type :=
| Parsed (v : value)
| SyntaxError (reason : string)
| OtherError (reason : string).

Definition newline : string := String (ascii_of_nat 10) EmptyString.

(** [c * n] for a one-character string. *)
Fixpoint repeat_string (c : string) (n : nat) : string :=
  match n with
  | O => ""
  | S n' => c ++ repeat_string c n'
  end.

(** The breadcrumb of a path: [' -> '.join(str(p) for p in path)]. *)
Definition breadcrumb (path : list segment) : string :=
  join " -> " (map str_segment path).

(** Truth value of a deque of segments. *)
Definition nonempty (path : list segment) : bool :=
  match path with
  | [] => false
  | _ :: _ => true
  end.

Module YamlSchemaValidator.

(** The fields of an instance. *)
Record t : Type := New {
  yaml_file : Path;
  data : value;
  schema : value
}.

Section Methods.

Variable open_read : string -> open_result.
Variable json_load : string -> parse_result.
Variable yaml_safe_load : string -> parse_result.
Variable jsonschema_validate : value -> value -> engine_result.

Definition load_json_schema (path_ : Path) : IO (bool * value) :=
  match open_read (Path_str path_) with
  | FileNotFound =>
      print ("Error: Schema file '" ++ Path_str path_ ++ "' not found") ;;
      ret (false, VNull)
  | OpenFailed e =>
      print ("Error reading JSON schema file: " ++ e) ;;
      ret (false, VNull)
  | Content text =>
      match json_load text with
      | Parsed json_schema => ret (true, json_schema)
      | SyntaxError e =>
          print ("Error parsing JSON schema: " ++ e) ;;
          ret (false, VNull)
      | OtherError e =>
          print ("Error reading JSON schema file: " ++ e) ;;
          ret (false, VNull)
      end
  end.

Definition init (yaml_file : Path) (schema_object : value) : t :=
  New yaml_file VNull schema_object.

(** [load_yaml] answers with its boolean and the instance as it leaves it. *)
Definition load_yaml (self : t) : IO (bool * t) :=
  match open_read (Path_str (yaml_file self)) with
  | FileNotFound =>
      print ("Error: File '" ++ Path_str (yaml_file self) ++ "' not found") ;;
      ret (false, self)
  | OpenFailed e =>
      print ("Error reading YAML file: " ++ e) ;;
      ret (false, self)
  | Content text =>
      match yaml_safe_load text with
      | Parsed v => ret (true, New (yaml_file self) v (schema self))
      | SyntaxError e =>
          print ("Error parsing YAML: " ++ e) ;;
          ret (false, self)
      | OtherError e =>
          print ("Error reading YAML file: " ++ e) ;;
          ret (false, self)
      end
  end.

(** The handler of [ValidationError]: message, failure path, schema path. *)
Definition report_validation_error (message : string)
    (path schema_path : list segment) : IO unit :=
  print ("Validation Error: " ++ message) ;;
  let path_str := if nonempty path then breadcrumb path else "root" in
  print ("Failed at: " ++ path_str) ;;
  if nonempty schema_path then
    let schema_path_str := breadcrumb schema_path in
    print ("Schema path: " ++ schema_path_str)
  else ret tt.

Definition validate (self : t) : IO bool :=
  if negb (truthy (data self)) then
    print "Error: No data loaded. Call load_yaml() first." ;;
    ret false
  else
    emit (EngineCall (data self) (schema self)) ;;
    match jsonschema_validate (data self) (schema self) with
    | Passed => ret true
    | ValidationError message path schema_path =>
        report_validation_error message path schema_path ;;
        ret false
    | SchemaError message =>
        print ("Schema Error: " ++ message) ;;
        ret false
    end.

Definition validate_and_report (self : t) : IO (bool * t) :=
  print ("Validating: " ++ Path_str (yaml_file self)) ;;
  print (repeat_string "-" 80) ;;
  loaded <- load_yaml self ;;
  let (ok, self) := loaded in
  if negb ok then
    print (newline ++ "✗ Validation failed" ++ newline) ;;
    ret (false, self)
  else
    valid <- validate self ;;
    if valid then
      print "✓ Validation successful" ;;
      print (newline ++ "File '" ++ Path_str (yaml_file self)
               ++ "' is valid according to the schema." ++ newline) ;;
      ret (true, self)
    else
      print (newline ++ "✗ Validation failed" ++ newline) ;;
      ret (false, self).

End Methods.

End YamlSchemaValidator.

(** ** The command line *)

(** How a run ends: [sys.exit(status)], or an exception nobody caught. *)
Inductive outcome : Type :=
| Exit (status : Z)
| Uncaught (e : exn).


Section CommandLine.

Variable path_exists : string -> bool.
Variable open_read : string -> open_result.
Variable json_load : string -> parse_result.
Variable yaml_safe_load : string -> parse_result.
Variable jsonschema_validate : value -> value -> engine_result.

(** The body of [main], entered with both arguments converted. *)
Definition main (yaml_file : string) (schema_file : option string)
    : IO outcome :=
  let yaml_path := Path_of yaml_file in
  let validate_with (schema_path : Path) : IO outcome :=
    loaded <- YamlSchemaValidator.load_json_schema open_read json_load schema_path ;;
    let (success, schema) := loaded in
    if negb success then ret (Exit 1)
    else
      let validator := YamlSchemaValidator.init yaml_path schema in
      reported <- YamlSchemaValidator.validate_and_report
                    open_read yaml_safe_load jsonschema_validate validator ;;
      if fst reported then ret (Exit 0) else ret (Exit 1) in
  match schema_file with
  | None =>
      match infer_schema_path yaml_path with
      | Raise e => ret (Uncaught e)
      | Return None =>
          echo_err ("Error: Could not infer schema path for '"
                      ++ Path_str yaml_path ++ "'") ;;
          echo_err "Please provide schema file as second argument" ;;
          ret (Exit 1)
      | Return (Some schema_path) => validate_with schema_path
      end
  | Some given => validate_with (Path_of given)
  end.



End CommandLine.

(** The schema path a run works with: the one given on the command line,
    else the one inferred from the path of the document. *)
Definition resolve (yaml_file : string) (schema_file : option string)
    : result (option Path) :=
  match schema_file with
  | Some given => Return (Some (Path_of given))
  | None => infer_schema_path (Path_of yaml_file)
  end.

(** ** Sample documents and schemas *)

Module Samples.

(** The schema of the scenarios: [properties.age.type = integer] and
    [required: [name, age]]. *)
Definition person_schema : value :=
  VMap [("type", VStr "object");
        ("properties", VMap [("name", VMap [("type", VStr "string")]);
                             ("age", VMap [("type", VStr "integer")])]);
        ("required", VSeq [VStr "name"; VStr "age"])].

(** [{name: "Alice", age: 30}] *)
Definition alice : value :=
  VMap [("name", VStr "Alice"); ("age", VInt 30)].

(** [{}], the empty mapping. *)
Definition empty_mapping : value := VMap [].

Definition object_schema : value := VMap [("type", VStr "object")].
Definition name_required : value := VMap [("required", VSeq [VStr "name"])].
Definition bogus_type : value := VMap [("type", VStr "bogus")].
Definition integer_schema : value := VMap [("type", VStr "integer")].
Definition number_schema : value := VMap [("type", VStr "number")].

(** The values [3] and [3.5]. *)
Definition three : value := VInt 3.
Definition three_and_a_half : value := VFloat (7 # 2).

(** A value at a position inside a document, and the schema that constrains
    that position to a type. *)
Definition at_position (v : value) : value := VMap [("value", v)].
Definition position_of_type (name : string) : value :=
  VMap [("properties", VMap [("value", VMap [("type", VStr name)])])].

(** [{name: "Alice", age: "thirty"}] *)
Definition alice_thirty : value :=
  VMap [("name", VStr "Alice"); ("age", VStr "thirty")].

End Samples.

(** ** Sample file systems, parsers and engines *)

Module Worlds.

(** A file system with no file at all. *)
Definition empty_disk : string -> open_result :=
  fun _ => FileNotFound.

(** A file system with a document and a schema; [elsewhere] is what every
    other name gives. *)
Definition two_files (elsewhere : open_result) : string -> open_result :=
  fun name =>
    if name =? "doc.yml" then Content "name: Alice"
    else if name =? "person.schema.json" then Content "{}"
    else elsewhere.

(** A parser that reads every text as [v]. *)
Definition parse_as (v : value) : string -> parse_result :=
  fun _ => Parsed v.

(** A parser that finds a syntax error in every text. *)
Definition parse_nothing : string -> parse_result :=
  fun _ => SyntaxError "unexpected end of text".

(** An engine that accepts every document. *)
Definition accept_all : value -> value -> engine_result :=
  fun _ _ => Passed.

(** An engine that finds every schema malformed. *)
Definition reject_schema : value -> value -> engine_result :=
  fun _ _ => SchemaError "'bogus' is not a valid type".

End Worlds.

(** ** Reading a trace *)

(** The calls into the engine a run made, in order. *)
Definition engine_calls {A : Type} (m : IO A) : list event :=
  filter is_engine_call (trace_of m).


(** The first character of a line. *)
Definition first_char (line : string) : option ascii :=
  match line with
  | EmptyString => None
  | String c _ => Some c
  end.

(** The two lines [validate_and_report] opens with. *)
Definition report_header (self : YamlSchemaValidator.t) : list event :=
  [Print ("Validating: " ++ Path_str (YamlSchemaValidator.yaml_file self));
   Print (repeat_string "-" 80)].

(** The lines [validate_and_report] closes with, by its answer. *)
Definition report_footer (valid : bool) (self : YamlSchemaValidator.t)
    : list event :=
  if valid then
    [Print "✓ Validation successful";
     Print (newline ++ "File '" ++ Path_str (YamlSchemaValidator.yaml_file self)
              ++ "' is valid according to the schema." ++ newline)]
  else [Print (newline ++ "✗ Validation failed" ++ newline)].

(** The two lines [main] echoes when it has no schema to work with. *)
Definition no_schema_lines (yaml_file : string) : list event :=
  [EchoErr ("Error: Could not infer schema path for '"
              ++ Path_str (Path_of yaml_file) ++ "'");
   EchoErr "Please provide schema file as second argument"].

(** * Properties *)

(** ** The schema path resolver *)

Lemma contains_app (x : string) (xs ys : Path) :
  contains x (xs ++ ys) = contains x xs || contains x ys.
Proof. unfold contains. apply existsb_app. Qed.

(** A path that holds [x] splits at the first occurrence of [x]. *)
Lemma first_occurrence (x : string) (parts : Path) :
  contains x parts = true ->
  exists pre rest, parts = pre ++ x :: rest /\ contains x pre = false.
Proof.
  induction parts as [| p parts IH]; simpl; intros H.
  - discriminate.
  - destruct (String.eqb x p) eqn:E.
    + apply String.eqb_eq in E. subst p. exists [], parts. split; reflexivity.
    + simpl in H. destruct (IH H) as (pre & rest & -> & Hpre).
      exists (p :: pre), rest. split; [reflexivity |].
      simpl. rewrite E. exact Hpre.
Qed.

Lemma index_first (x : string) (pre rest : Path) :
  contains x pre = false ->
  index x (pre ++ x :: rest) = Return (List.length pre).
Proof.
  induction pre as [| p pre IH]; simpl; intros H.
  - rewrite String.eqb_refl. reflexivity.
  - apply orb_false_elim in H. destruct H as [Hp Hpre].
    rewrite String.eqb_sym, Hp, (IH Hpre). reflexivity.
Qed.

Lemma getitem_after (pre rest : Path) (x : string) :
  getitem (pre ++ x :: rest) (List.length pre + 1) =
  match rest with
  | [] => Raise IndexError
  | next :: _ => Return next
  end.
Proof.
  unfold getitem. replace (List.length pre + 1) with (S (List.length pre)) by lia.
  induction pre as [| p pre IH]; simpl.
  - destruct rest; reflexivity.
  - exact IH.
Qed.

(** What the resolver does with the component behind the first anchor. *)
Lemma infer_schema_path_at_anchor (pre rest : Path) :
  contains "samples" pre = false ->
  infer_schema_path (pre ++ "samples" :: rest) =
  match rest with
  | [] => Raise IndexError
  | category :: _ => Return (Some (Path_of (schema_name category)))
  end.
Proof.
  intros Hpre. unfold infer_schema_path.
  rewrite contains_app. replace (contains "samples" ("samples" :: rest)) with true by reflexivity.
  rewrite orb_true_r, (index_first _ _ _ Hpre), getitem_after.
  destruct rest; reflexivity.
Qed.

Lemma infer_schema_path_no_anchor (parts : Path) :
  contains "samples" parts = false -> infer_schema_path parts = Return None.
Proof. intros H. unfold infer_schema_path. rewrite H. reflexivity. Qed.

Lemma split_on_plain (sep : ascii) (s : string) :
  occurs sep s = false -> split_on sep s = [s].
Proof.
  induction s as [| c s IH]; simpl; intros H.
  - reflexivity.
  - apply orb_false_elim in H. destruct H as [Hc Hs].
    rewrite Hc, (IH Hs). reflexivity.
Qed.

Lemma split_on_app (sep : ascii) (a b : string) :
  occurs sep a = false ->
  split_on sep (a ++ String sep b) = a :: split_on sep b.
Proof.
  induction a as [| c a IH]; simpl; intros H.
  - rewrite Ascii.eqb_refl. reflexivity.
  - apply orb_false_elim in H. destruct H as [Hc Ha].
    rewrite Hc, (IH Ha). reflexivity.
Qed.

Lemma occurs_app (c : ascii) (a b : string) :
  occurs c (a ++ b) = occurs c a || occurs c b.
Proof.
  induction a as [| c' a IH]; simpl.
  - reflexivity.
  - rewrite IH. apply orb_assoc.
Qed.

Lemma suffixed_not_short (x : string) :
  (x ++ ".schema.json" =? "") = false /\ (x ++ ".schema.json" =? ".") = false.
Proof.
  destruct x as [| c x]; [split; reflexivity |].
  split; [reflexivity |].
  simpl. destruct (Ascii.eqb c "."); [| reflexivity].
  destruct x; reflexivity.
Qed.

(** The parts of the inferred path when the category is a plain component. *)
Lemma schema_name_parts (category : string) :
  is_component category = true ->
  Path_of (schema_name category) =
  ["schemas"; category; (category ++ ".schema.json")%string].
Proof.
  unfold is_component. intros H.
  apply andb_prop in H. destruct H as [H Hslash].
  apply andb_prop in H. destruct H as [Hempty Hdot].
  apply negb_true_iff in Hslash, Hempty, Hdot.
  unfold Path_of.
  replace (path_root (schema_name category)) with EmptyString by reflexivity.
  replace (schema_name category)
    with ("schemas" ++ String "/" (category ++ String "/" (category ++ ".schema.json")))%string
    by reflexivity.
  rewrite split_on_app by reflexivity.
  rewrite split_on_app by exact Hslash.
  rewrite split_on_plain
    by (rewrite occurs_app, Hslash; reflexivity).
  destruct (suffixed_not_short category) as [He Hd].
  cbn [filter]. rewrite Hempty, Hdot, He, Hd. reflexivity.
Qed.

(** C2, as stated, fails on a path that holds the anchor twice: in
    [samples/a/samples/b] the anchor is followed by [b], and the resolver
    answers with the schema of [a], the component behind the first anchor. *)
Lemma infer_schema_path_second_anchor :
  followed_by "samples" "b" ["samples"; "a"; "samples"; "b"] /\
  infer_schema_path ["samples"; "a"; "samples"; "b"] =
    Return (Some ["schemas"; "a"; "a.schema.json"]) /\
  infer_schema_path ["samples"; "a"; "samples"; "b"] <>
    Return (Some (Path_of (schema_name "b"))).
Proof.
  split; [| split].
  - exists ["samples"; "a"], []. reflexivity.
  - reflexivity.
  - vm_compute. discriminate.
Qed.

(** C2 (amended): for every document path whose first [samples] component
    is followed by a component X, the resolver returns exactly
    [schemas/X/X.schema.json], the path of parts [schemas], [X] and
    [X.schema.json]; for every path with no [samples] component it returns
    [None]. *)
Theorem infer_schema_path_first_anchor (parts : Path) :
  (contains "samples" parts = false ->
   infer_schema_path parts = Return None) /\
  (forall pre X post,
     parts = pre ++ "samples" :: X :: post ->
     contains "samples" pre = false ->
     infer_schema_path parts = Return (Some (Path_of (schema_name X))) /\
     (is_component X = true ->
      Path_of (schema_name X) = ["schemas"; X; (X ++ ".schema.json")%string])).
Proof.
  split.
  - apply infer_schema_path_no_anchor.
  - intros pre X post -> Hpre. split.
    + rewrite (infer_schema_path_at_anchor _ _ Hpre). reflexivity.
    + apply schema_name_parts.
Qed.

Lemma infer_schema_path_first_anchor_witness :
  infer_schema_path ["docs"; "notes.yml"] = Return None /\
  infer_schema_path ["data"; "samples"; "test-case"; "gsma_4.4.2.2_TC.yml"] =
    Return (Some ["schemas"; "test-case"; "test-case.schema.json"]).
Proof.
  split.
  - apply (proj1 (infer_schema_path_first_anchor ["docs"; "notes.yml"])).
    reflexivity.
  - destruct (proj2 (infer_schema_path_first_anchor
                       ["data"; "samples"; "test-case"; "gsma_4.4.2.2_TC.yml"])
                ["data"] "test-case" ["gsma_4.4.2.2_TC.yml"]
                eq_refl eq_refl) as [H _].
    exact H.
Defined.

(** C10, as stated, fails on a path that holds the anchor twice: the last
    component of [samples/a/samples] is [samples], and the resolver returns
    the schema of [a] without raising. *)
Lemma infer_schema_path_anchor_twice_returns :
  last ["samples"; "a"; "samples"] "" = "samples" /\
  infer_schema_path ["samples"; "a"; "samples"] =
    Return (Some ["schemas"; "a"; "a.schema.json"]) /\
  infer_schema_path ["samples"; "a"; "samples"] <> Raise IndexError.
Proof.
  split; [| split]; [reflexivity | reflexivity | discriminate].
Qed.

(** C10 (amended): [infer_schema_path] is not total: it raises [IndexError]
    exactly on the paths whose first [samples] component is their last
    component (the anchor with no following component); it raises nothing
    else, so it returns a schema path or [None] exactly when the first
    anchor, if there is one, is followed by a component. *)
Theorem infer_schema_path_raises (parts : Path) :
  (infer_schema_path parts = Raise IndexError <->
   exists pre, parts = pre ++ ["samples"] /\ contains "samples" pre = false) /\
  infer_schema_path parts <> Raise ValueError.
Proof.
  destruct (contains "samples" parts) eqn:Hin.
  - destruct (first_occurrence _ _ Hin) as (pre & rest & -> & Hpre).
    rewrite (infer_schema_path_at_anchor _ _ Hpre).
    destruct rest as [| next rest].
    + split; [| discriminate]. split; [| reflexivity].
      intros _. exists pre. split; [reflexivity | exact Hpre].
    + split; [| discriminate]. split; [discriminate |].
      intros (pre' & Heq & Hpre').
      assert (Hc : contains "samples" (pre ++ ["samples"]) = true)
        by (rewrite contains_app; apply orb_true_r).
      destruct (Nat.lt_trichotomy (List.length pre) (List.length pre')) as [Hl | [Hl | Hl]].
      * apply (f_equal (fun l => nth_error l (List.length pre))) in Heq.
        rewrite nth_error_app2, Nat.sub_diag in Heq by lia.
        rewrite nth_error_app1 in Heq by lia. simpl in Heq.
        symmetry in Heq. apply nth_error_In in Heq.
        assert (contains "samples" pre' = true).
        { unfold contains. apply existsb_exists. exists "samples".
          split; [exact Heq | apply String.eqb_refl]. }
        congruence.
      * apply (f_equal (@List.length string)) in Heq.
        rewrite !length_app in Heq. simpl in Heq. lia.
      * apply (f_equal (@List.length string)) in Heq.
        rewrite !length_app in Heq. simpl in Heq. lia.
  - rewrite (infer_schema_path_no_anchor _ Hin).
    split; [| discriminate]. split; [discriminate |].
    intros (pre & -> & _). rewrite contains_app in Hin.
    apply orb_false_elim in Hin. destruct Hin as [_ Hin]. discriminate.
Qed.

(** ** Traces *)


Lemma trace_of_bind {A B : Type} (m : IO A) (k : A -> IO B) :
  trace_of (bind m k) = trace_of m ++ trace_of (k (value_of m)).
Proof.
  unfold bind, value_of, trace_of. destruct m as [a before]. simpl.
  destruct (k a). reflexivity.
Qed.

Lemma engine_called_bind {A B : Type} (m : IO A) (k : A -> IO B) :
  engine_called (bind m k) = engine_called m || engine_called (k (value_of m)).
Proof. unfold engine_called. rewrite trace_of_bind. apply existsb_app. Qed.

Lemma printed_bind {A B : Type} (m : IO A) (k : A -> IO B) :
  printed (bind m k) = printed m ++ printed (k (value_of m)).
Proof. unfold printed. rewrite trace_of_bind. apply flat_map_app. Qed.

(** ** The method [validate] *)

(** The documents the guard [not self.data] stops: [None], [False], zero,
    the empty string, the empty list and the empty dict. *)
Lemma truthy_false_iff (v : value) :
  truthy v = false <->
  v = VNull \/ v = VBool false \/ v = VInt 0 \/
  (exists q, v = VFloat q /\ Qnum q = 0%Z) \/
  v = VStr "" \/ v = VSeq [] \/ v = VMap [].
Proof.
  split.
  - destruct v as [| b | n | q | s | items | entries]; simpl; intros H.
    + auto.
    + subst b. auto.
    + apply negb_false_iff, Z.eqb_eq in H. subst n. auto.
    + apply negb_false_iff, Z.eqb_eq in H. right; right; right; left.
      exists q. auto.
    + apply negb_false_iff, String.eqb_eq in H. subst s. auto 6.
    + destruct items; [auto 7 | discriminate].
    + destruct entries; [auto 8 | discriminate].
  - intros [-> | [-> | [-> | [(q & -> & Hq) | [-> | [-> | ->]]]]]]; try reflexivity.
    simpl. rewrite Hq. reflexivity.
Qed.

Section ValidateFacts.

Import YamlSchemaValidator.

Variable engine : value -> value -> engine_result.

(** Behind the guard on [self.data] nothing is looked at. *)
Lemma validate_falsy (self : t) :
  truthy (data self) = false ->
  validate engine self =
  (false, [Print "Error: No data loaded. Call load_yaml() first."]).
Proof. intros H. unfold validate. rewrite H. reflexivity. Qed.

(** Past the guard the engine is entered once, and its answer decides. *)
Lemma validate_truthy (self : t) :
  truthy (data self) = true ->
  validate engine self =
  match engine (data self) (schema self) with
  | Passed => (true, [EngineCall (data self) (schema self)])
  | ValidationError message path schema_path =>
      (false,
       EngineCall (data self) (schema self)
       :: Print ("Validation Error: " ++ message)
       :: Print ("Failed at: " ++ if nonempty path then breadcrumb path else "root")
       :: (if nonempty schema_path
           then [Print ("Schema path: " ++ breadcrumb schema_path)]
           else []))
  | SchemaError message =>
      (false, [EngineCall (data self) (schema self);
               Print ("Schema Error: " ++ message)])
  end.
Proof.
  intros H. unfold validate. rewrite H. simpl.
  destruct (engine (data self) (schema self)) as [| message path schema_path | message].
  - reflexivity.
  - unfold report_validation_error. destruct (nonempty schema_path); reflexivity.
  - reflexivity.
Qed.

(** On a document that passes the guard, [validate] answers [True] exactly
    when the engine accepts the document. *)
Lemma validate_true_iff (self : t) :
  value_of (validate engine self) = true <->
  truthy (data self) = true /\ engine (data self) (schema self) = Passed.
Proof.
  destruct (truthy (data self)) eqn:H.
  - rewrite (validate_truthy self H).
    destruct (engine (data self) (schema self)); simpl; split;
      intros; try discriminate; try tauto.
    all: destruct H0; discriminate.
  - rewrite (validate_falsy self H). simpl. split; [discriminate |].
    intros [? _]. discriminate.
Qed.

End ValidateFacts.

(** ** Breadcrumbs *)

Lemma string_app_assoc (a b c : string) :
  ((a ++ b) ++ c = a ++ (b ++ c))%string.
Proof. induction a as [| x a IH]; simpl; [reflexivity | rewrite IH; reflexivity]. Qed.

Lemma join_app (sep : string) (xs ys : list string) :
  xs <> [] -> ys <> [] ->
  join sep (xs ++ ys) = (join sep xs ++ sep ++ join sep ys)%string.
Proof.
  induction xs as [| x xs IH]; intros Hx Hy; [contradiction |].
  destruct xs as [| x' xs].
  - simpl. destruct ys; [contradiction | reflexivity].
  - change ((x :: x' :: xs) ++ ys) with (x :: (x' :: xs) ++ ys).
    change (join sep (x :: (x' :: xs) ++ ys))
      with (x ++ sep ++ join sep ((x' :: xs) ++ ys))%string.
    rewrite IH by (discriminate || assumption).
    change (join sep (x :: x' :: xs)) with (x ++ sep ++ join sep (x' :: xs))%string.
    rewrite !string_app_assoc. reflexivity.
Qed.

(** Segments are joined in the order of the path. *)
Lemma breadcrumb_app (before after : list segment) :
  nonempty before = true -> nonempty after = true ->
  breadcrumb (before ++ after) =
  (breadcrumb before ++ " -> " ++ breadcrumb after)%string.
Proof.
  intros Hb Ha. unfold breadcrumb. rewrite map_app. apply join_app.
  - destruct before; [discriminate | discriminate].
  - destruct after; [discriminate | discriminate].
Qed.

Section Claims.

Import YamlSchemaValidator.

Variable open_read : string -> open_result.
Variable yaml_safe_load : string -> parse_result.
Variable engine : value -> value -> engine_result.

(** C5: when the text of the input file is not well-formed YAML, so that
    [yaml.safe_load] raises its [YAMLError], [load_yaml] fails and reports
    the parse error, and [validate_and_report] returns failure after it:
    the run prints the header, the parse error and the failure line and
    nothing else, neither the engine nor [validate] is entered. *)
Theorem malformed_yaml_never_validated (self : t) (text reason : string) :
  open_read (Path_str (yaml_file self)) = Content text ->
  yaml_safe_load text = SyntaxError reason ->
  load_yaml open_read yaml_safe_load self =
    ((false, self), [Print ("Error parsing YAML: " ++ reason)]) /\
  validate_and_report open_read yaml_safe_load engine self =
    ((false, self),
     [Print ("Validating: " ++ Path_str (yaml_file self));
      Print (repeat_string "-" 80);
      Print ("Error parsing YAML: " ++ reason);
      Print (newline ++ "✗ Validation failed" ++ newline)]) /\
  engine_called (validate_and_report open_read yaml_safe_load engine self) = false.
Proof.
  intros Hopen Hparse.
  assert (Hload : load_yaml open_read yaml_safe_load self =
                  ((false, self), [Print ("Error parsing YAML: " ++ reason)])).
  { unfold load_yaml. rewrite Hopen, Hparse. reflexivity. }
  assert (Hrun : validate_and_report open_read yaml_safe_load engine self =
                 ((false, self),
                  [Print ("Validating: " ++ Path_str (yaml_file self));
                   Print (repeat_string "-" 80);
                   Print ("Error parsing YAML: " ++ reason);
                   Print (newline ++ "✗ Validation failed" ++ newline)])).
  { unfold validate_and_report. rewrite Hload. reflexivity. }
  split; [exact Hload | split; [exact Hrun |]].
  rewrite Hrun. reflexivity.
Qed.

(** C9: a document whose YAML content parses to a falsy value is never
    validated: [validate] returns failure with the message [No data loaded]
    and does not enter the engine, whatever the schema is; so does
    [validate_and_report] on the file the document comes from. *)
Theorem falsy_document_never_validated
    (file : Path) (text : string) (doc schema : value) :
  open_read (Path_str file) = Content text ->
  yaml_safe_load text = Parsed doc ->
  truthy doc = false ->
  validate engine (New file doc schema) =
    (false, [Print "Error: No data loaded. Call load_yaml() first."]) /\
  engine_called (validate engine (New file doc schema)) = false /\
  fst (value_of (validate_and_report open_read yaml_safe_load engine
                   (init file schema))) = false /\
  engine_called (validate_and_report open_read yaml_safe_load engine
                   (init file schema)) = false /\
  In "Error: No data loaded. Call load_yaml() first."
     (printed (validate_and_report open_read yaml_safe_load engine
                 (init file schema))).
Proof.
  intros Hopen Hparse Hfalsy.
  assert (Hv : validate engine (New file doc schema) =
               (false, [Print "Error: No data loaded. Call load_yaml() first."]))
    by (apply validate_falsy; exact Hfalsy).
  assert (Hrun : validate_and_report open_read yaml_safe_load engine
                   (init file schema) =
                 ((false, New file doc schema),
                  [Print ("Validating: " ++ Path_str file);
                   Print (repeat_string "-" 80);
                   Print "Error: No data loaded. Call load_yaml() first.";
                   Print (newline ++ "✗ Validation failed" ++ newline)])).
  { unfold validate_and_report, load_yaml, init. simpl yaml_file.
    rewrite Hopen, Hparse. cbn [bind ret print fst snd app].
    simpl YamlSchemaValidator.schema. rewrite Hv. reflexivity. }
  split; [exact Hv |]. split; [rewrite Hv; reflexivity |].
  rewrite Hrun. split; [reflexivity |]. split; [reflexivity |].
  simpl. right. right. left. reflexivity.
Qed.

(** C7 (amended): for every Invalid outcome the report holds the violation
    message, then the failure path as a breadcrumb of its segments joined in
    order, or the literal [root] when the failure path is empty, then the
    schema path as a breadcrumb when it is not empty; an empty schema path
    gets no line.  The report is a total function of the outcome. *)
Theorem validation_error_report
    (self : t) (message : string) (path schema_path : list segment) :
  truthy (data self) = true ->
  engine (data self) (schema self) = ValidationError message path schema_path ->
  value_of (validate engine self) = false /\
  printed (validate engine self) =
    [("Validation Error: " ++ message)%string;
     ("Failed at: " ++ if nonempty path then breadcrumb path else "root")%string]
    ++ (if nonempty schema_path
        then [("Schema path: " ++ breadcrumb schema_path)%string]
        else []) /\
  (forall before after,
     nonempty before = true -> nonempty after = true ->
     breadcrumb (before ++ after) =
     (breadcrumb before ++ " -> " ++ breadcrumb after)%string).
Proof.
  intros Htruthy Hengine.
  rewrite (validate_truthy engine self Htruthy), Hengine.
  split; [reflexivity |]. split.
  - destruct (nonempty schema_path); reflexivity.
  - intros before after Hb Ha. apply breadcrumb_app; assumption.
Qed.

(** X16: a document that does not load is never validated, whatever made
    the loader fail. *)
Lemma load_failure_never_validated (self : t) :
  fst (value_of (load_yaml open_read yaml_safe_load self)) = false ->
  fst (value_of (validate_and_report open_read yaml_safe_load engine self)) = false /\
  engine_called (validate_and_report open_read yaml_safe_load engine self) = false.
Proof.
  unfold validate_and_report, load_yaml.
  destruct (open_read (Path_str (yaml_file self))) as [| reason | text];
    [intros _; split; reflexivity | intros _; split; reflexivity |].
  destruct (yaml_safe_load text) as [doc | reason | reason];
    [discriminate | intros _; split; reflexivity | intros _; split; reflexivity].
Qed.

End Claims.

(** X14: for a document that passes the guard, the report of a malformed
    schema is one line about the schema; it has no failure path and is the
    report of no violation. *)
Lemma schema_error_report
    (engine : value -> value -> engine_result)
    (self : YamlSchemaValidator.t) (reason : string) :
  truthy (YamlSchemaValidator.data self) = true ->
  engine (YamlSchemaValidator.data self) (YamlSchemaValidator.schema self)
    = SchemaError reason ->
  value_of (YamlSchemaValidator.validate engine self) = false /\
  printed (YamlSchemaValidator.validate engine self) =
    [("Schema Error: " ++ reason)%string] /\
  forall message path schema_path,
    printed (YamlSchemaValidator.validate engine self) <>
    printed (YamlSchemaValidator.report_validation_error message path schema_path).
Proof.
  intros Htruthy Hengine.
  rewrite (validate_truthy engine self Htruthy), Hengine.
  split; [reflexivity |]. split; [reflexivity |].
  intros message path schema_path.
  unfold YamlSchemaValidator.report_validation_error.
  destruct (nonempty schema_path); discriminate.
Qed.

(** ** The program on the modelled engine *)

Section OnTheEngine.

Import Samples.

Variable re_search : string -> string -> bool.
Variable format_ok : string -> string -> bool.
Variable file : Path.

#[local] Set Warnings "-notation-for-abbreviation".
Notation modelled := (Engine.validate re_search format_ok).
Notation run doc schema :=
  (YamlSchemaValidator.validate modelled (YamlSchemaValidator.New file doc schema)).

#[local] Set Warnings "notation-for-abbreviation".

(** C1: the document [{name: "Alice", age: 30}] is reported valid against
    the schema of the scenarios, as the claim says; the empty mapping [{}]
    satisfies the schema [{"type": "object"}], and [validate] reports it
    invalid, without entering the engine: there the code departs from the
    claim. *)
Theorem empty_mapping_reported_invalid :
  modelled alice person_schema = Passed /\
  value_of (run alice person_schema) = true /\
  modelled empty_mapping object_schema = Passed /\
  run empty_mapping object_schema =
    (false, [Print "Error: No data loaded. Call load_yaml() first."]).
Proof. repeat split. Qed.

(** C3: the empty mapping [{}] violates the schema [{"required": ["name"]}],
    the walk stops at that violation, and [validate] reports none: it
    prints that no data was loaded and never enters the engine.  There the
    code departs from the claim. *)
Theorem violation_of_empty_mapping_not_reported :
  modelled empty_mapping name_required =
    ValidationError "'name' is a required property" [] [Key "required"] /\
  run empty_mapping name_required =
    (false, [Print "Error: No data loaded. Call load_yaml() first."]) /\
  engine_called (run empty_mapping name_required) = false.
Proof. repeat split. Qed.

(** C6: the schema [{"type": "bogus"}] is malformed and the engine detects
    it; with the empty mapping [{}] as the document [validate] does not
    report a schema error: it prints that no data was loaded and never
    enters the engine.  There the code departs from the claim. *)
Theorem schema_error_of_empty_mapping_not_reported :
  modelled empty_mapping bogus_type = SchemaError "'bogus' is not a valid type" /\
  run empty_mapping bogus_type =
    (false, [Print "Error: No data loaded. Call load_yaml() first."]) /\
  engine_called (run empty_mapping bogus_type) = false.
Proof. repeat split. Qed.

(** C8: a position constrained to type [integer] rejects the value [3.5]
    and accepts [3]; constrained to type [number] it accepts both; this
    holds for the document itself and for a position inside it.  Every
    integer is a number and no float is an integer. *)
Theorem integer_is_number_not_conversely :
  value_of (run three integer_schema) = true /\
  value_of (run three_and_a_half integer_schema) = false /\
  value_of (run three number_schema) = true /\
  value_of (run three_and_a_half number_schema) = true /\
  value_of (run (at_position three) (position_of_type "integer")) = true /\
  value_of (run (at_position three_and_a_half) (position_of_type "integer")) = false /\
  value_of (run (at_position three) (position_of_type "number")) = true /\
  value_of (run (at_position three_and_a_half) (position_of_type "number")) = true /\
  (forall n, Engine.has_type "integer" (VInt n) = true /\
             Engine.has_type "number" (VInt n) = true) /\
  (forall q, Engine.has_type "integer" (VFloat q) = false /\
             Engine.has_type "number" (VFloat q) = true).
Proof. repeat split. Qed.

End OnTheEngine.

(** C7, as stated, fails on an Invalid outcome whose schema path is empty,
    the one a [false] schema gives: the failure path is rendered as [root],
    the schema path is not rendered at all. *)
Lemma empty_schema_path_not_rendered :
  printed (YamlSchemaValidator.report_validation_error
             "False schema does not allow 3" [] []) =
    ["Validation Error: False schema does not allow 3"; "Failed at: root"] /\
  ~ In "Schema path: root"
       (printed (YamlSchemaValidator.report_validation_error
                   "False schema does not allow 3" [] [])).
Proof.
  split; [reflexivity |].
  simpl. intros [H | [H | []]]; discriminate.
Qed.

(** ** The exit status *)

Section ExitStatus.

Variable path_exists : string -> bool.
Variable open_read : string -> open_result.
Variable json_load : string -> parse_result.
Variable yaml_safe_load : string -> parse_result.
Variable engine : value -> value -> engine_result.


(** X15: [validate_and_report] answers [True] exactly when the document
    loads, passes the guard on [self.data] and is accepted by the engine. *)
Lemma validate_and_report_true_iff (self : YamlSchemaValidator.t) :
  fst (value_of (YamlSchemaValidator.validate_and_report
                   open_read yaml_safe_load engine self)) = true <->
  exists text doc,
    open_read (Path_str (YamlSchemaValidator.yaml_file self)) = Content text /\
    yaml_safe_load text = Parsed doc /\
    truthy doc = true /\
    engine doc (YamlSchemaValidator.schema self) = Passed.
Proof.
  unfold YamlSchemaValidator.validate_and_report, YamlSchemaValidator.load_yaml.
  destruct (open_read (Path_str (YamlSchemaValidator.yaml_file self)))
    as [| reason | text] eqn:Hopen.
  1, 2: split; [discriminate | intros (? & ? & ? & _); discriminate].
  destruct (yaml_safe_load text) as [doc | reason | reason] eqn:Hparse.
  2, 3: split; [discriminate |];
        intros (text' & doc' & Ht & Hp & _); injection Ht as <-; congruence.
  cbn [bind ret print fst snd app value_of negb].
  set (loaded := YamlSchemaValidator.New (YamlSchemaValidator.yaml_file self) doc
                   (YamlSchemaValidator.schema self)).
  pose proof (validate_true_iff engine loaded) as Hiff.
  unfold value_of in Hiff.
  destruct (YamlSchemaValidator.validate engine loaded) as [valid events].
  simpl in Hiff. destruct valid; simpl.
  - split; [intros _ | reflexivity].
    exists text, doc. destruct (proj1 Hiff eq_refl) as [Ht He]. auto.
  - split; [discriminate |].
    intros (text' & doc' & Ht & Hp & Htruthy & He).
    injection Ht as <-. rewrite Hparse in Hp. injection Hp as <-.
    apply Hiff. split; assumption.
Qed.


End ExitStatus.


(** ** The theorems at work on sample runs *)

(** A file with an unterminated quote: the run stops at the loader. *)
Lemma malformed_yaml_never_validated_witness :
  engine_called
    (YamlSchemaValidator.validate_and_report
       (fun _ => Content "name: 'Alice")
       (fun _ => SyntaxError "found unexpected end of stream")
       (fun _ _ => Passed)
       (YamlSchemaValidator.init ["people.yml"] Samples.person_schema)) = false.
Proof.
  exact (proj2 (proj2
    (malformed_yaml_never_validated
       (fun _ => Content "name: 'Alice")
       (fun _ => SyntaxError "found unexpected end of stream")
       (fun _ _ => Passed)
       (YamlSchemaValidator.init ["people.yml"] Samples.person_schema)
       "name: 'Alice" "found unexpected end of stream" eq_refl eq_refl))).
Defined.

(** A file that holds [{}], with an engine that accepts every document. *)
Lemma falsy_document_never_validated_witness :
  truthy Samples.empty_mapping = false /\
  YamlSchemaValidator.validate (fun _ _ => Passed)
    (YamlSchemaValidator.New ["empty.yml"] Samples.empty_mapping Samples.object_schema) =
  (false, [Print "Error: No data loaded. Call load_yaml() first."]).
Proof.
  split; [reflexivity |].
  exact (proj1
    (falsy_document_never_validated
       (fun _ => Content "{}") (fun _ => Parsed Samples.empty_mapping)
       (fun _ _ => Passed)
       ["empty.yml"] "{}" Samples.empty_mapping Samples.object_schema
       eq_refl eq_refl eq_refl)).
Defined.

(** A violation two keys deep in the document. *)
Lemma validation_error_report_witness :
  printed (YamlSchemaValidator.validate
             (fun _ _ => ValidationError "'thirty' is not of type 'integer'"
                           [Key "people"; Index 0; Key "age"]
                           [Key "properties"; Key "people"; Key "items";
                            Key "properties"; Key "age"; Key "type"])
             (YamlSchemaValidator.New ["people.yml"] Samples.alice_thirty
                Samples.person_schema)) =
  ["Validation Error: 'thirty' is not of type 'integer'";
   "Failed at: people -> 0 -> age";
   "Schema path: properties -> people -> items -> properties -> age -> type"].
Proof.
  exact (proj1 (proj2
    (validation_error_report
       (fun _ _ => ValidationError "'thirty' is not of type 'integer'"
                     [Key "people"; Index 0; Key "age"]
                     [Key "properties"; Key "people"; Key "items";
                      Key "properties"; Key "age"; Key "type"])
       (YamlSchemaValidator.New ["people.yml"] Samples.alice_thirty Samples.person_schema)
       "'thirty' is not of type 'integer'"
       [Key "people"; Index 0; Key "age"]
       [Key "properties"; Key "people"; Key "items";
        Key "properties"; Key "age"; Key "type"] eq_refl eq_refl))).
Defined.

(** * More of the program *)

(** ** How the methods unfold *)

Section Unfolding.

Import YamlSchemaValidator.

Variable open_read : string -> open_result.
Variable json_load : string -> parse_result.
Variable yaml_safe_load : string -> parse_result.
Variable engine : value -> value -> engine_result.

(** [load_yaml] touches nothing but [data], and that only when it succeeds. *)
Lemma load_yaml_cases (self : t) :
  (exists text doc,
     open_read (Path_str (yaml_file self)) = Content text /\
     yaml_safe_load text = Parsed doc /\
     load_yaml open_read yaml_safe_load self =
       ((true, New (yaml_file self) doc (schema self)), [])) \/
  (exists line,
     load_yaml open_read yaml_safe_load self = ((false, self), [Print line]) /\
     first_char line = Some "E"%char /\
     forall text doc,
       open_read (Path_str (yaml_file self)) = Content text ->
       yaml_safe_load text <> Parsed doc).
Proof.
  unfold load_yaml.
  destruct (open_read (Path_str (yaml_file self))) as [| reason | text] eqn:Hopen.
  - right. eexists. split; [reflexivity |]. split; [reflexivity |]. discriminate.
  - right. eexists. split; [reflexivity |]. split; [reflexivity |]. discriminate.
  - destruct (yaml_safe_load text) as [doc | reason | reason] eqn:Hparse.
    + left. exists text, doc. auto.
    + right. eexists. split; [reflexivity |]. split; [reflexivity |].
      intros text' doc' Ht. injection Ht as <-. rewrite Hparse. discriminate.
    + right. eexists. split; [reflexivity |]. split; [reflexivity |].
      intros text' doc' Ht. injection Ht as <-. rewrite Hparse. discriminate.
Qed.

(** [validate_and_report] is its header, what the loader printed, what
    [validate] left when the loader succeeded, and its footer. *)
Lemma validate_and_report_unfold (self : t) :
  validate_and_report open_read yaml_safe_load engine self =
  let load := load_yaml open_read yaml_safe_load self in
  let loaded := snd (value_of load) in
  if fst (value_of load) then
    let checked := validate engine loaded in
    ((value_of checked, loaded),
     report_header self ++ trace_of load ++ trace_of checked
       ++ report_footer (value_of checked) loaded)
  else
    ((false, loaded), report_header self ++ trace_of load ++ report_footer false loaded).
Proof.
  unfold validate_and_report. cbv zeta.
  destruct (load_yaml open_read yaml_safe_load self) as [[ok loaded] events].
  unfold bind, print, ret, value_of, trace_of, report_header, report_footer.
  cbn [fst snd].
  destruct ok; cbn [negb].
  - destruct (validate engine loaded) as [valid checks].
    destruct valid; cbn [fst snd app]; rewrite ?app_nil_r; reflexivity.
  - cbn [fst snd app]. rewrite ?app_nil_r. reflexivity.
Qed.

(** [load_json_schema]: the schema as parsed, with nothing printed, or
    [None] and one line that says what went wrong. *)
Lemma load_json_schema_cases (path_ : Path) :
  (exists text json_schema,
     open_read (Path_str path_) = Content text /\
     json_load text = Parsed json_schema /\
     load_json_schema open_read json_load path_ = ((true, json_schema), [])) \/
  (exists line,
     load_json_schema open_read json_load path_ = ((false, VNull), [Print line]) /\
     first_char line = Some "E"%char /\
     forall text json_schema,
       open_read (Path_str path_) = Content text ->
       json_load text <> Parsed json_schema).
Proof.
  unfold load_json_schema.
  destruct (open_read (Path_str path_)) as [| reason | text] eqn:Hopen.
  - right. eexists. split; [reflexivity |]. split; [reflexivity |]. discriminate.
  - right. eexists. split; [reflexivity |]. split; [reflexivity |]. discriminate.
  - destruct (json_load text) as [json_schema | reason | reason] eqn:Hparse.
    + left. exists text, json_schema. auto.
    + right. eexists. split; [reflexivity |]. split; [reflexivity |].
      intros text' js Ht. injection Ht as <-. rewrite Hparse. discriminate.
    + right. eexists. split; [reflexivity |]. split; [reflexivity |].
      intros text' js Ht. injection Ht as <-. rewrite Hparse. discriminate.
Qed.

(** [main] is the schema path of the run, then the schema loader, then
    [validate_and_report]. *)
Lemma main_unfold (yaml_file : string) (schema_file : option string) :
  main open_read json_load yaml_safe_load engine yaml_file schema_file =
  match resolve yaml_file schema_file with
  | Raise e => (Uncaught e, [])
  | Return None => (Exit 1, no_schema_lines yaml_file)
  | Return (Some schema_path) =>
      let loading := load_json_schema open_read json_load schema_path in
      if fst (value_of loading) then
        let report :=
          validate_and_report open_read yaml_safe_load engine
            (init (Path_of yaml_file) (snd (value_of loading))) in
        (if fst (value_of report) then Exit 0 else Exit 1,
         trace_of loading ++ trace_of report)
      else (Exit 1, trace_of loading)
  end.
Proof.
  assert (Hwith : forall schema_path,
    (loaded <- load_json_schema open_read json_load schema_path ;;
     let (success, schema) := loaded in
     if negb success then ret (Exit 1)
     else
       reported <- validate_and_report open_read yaml_safe_load engine
                     (init (Path_of yaml_file) schema) ;;
       if fst reported then ret (Exit 0) else ret (Exit 1)) =
    let loading := load_json_schema open_read json_load schema_path in
    if fst (value_of loading) then
      let report :=
        validate_and_report open_read yaml_safe_load engine
          (init (Path_of yaml_file) (snd (value_of loading))) in
      (if fst (value_of report) then Exit 0 else Exit 1,
       trace_of loading ++ trace_of report)
    else (Exit 1, trace_of loading)).
  { intros schema_path. cbv zeta.
    destruct (load_json_schema open_read json_load schema_path)
      as [[success schema] events].
    unfold bind, ret, value_of, trace_of. cbn [fst snd].
    destruct success; cbn [negb].
    - destruct (validate_and_report open_read yaml_safe_load engine
                  (init (Path_of yaml_file) schema)) as [[valid self] report].
      cbn [fst snd]. destruct valid; rewrite app_nil_r; reflexivity.
    - rewrite app_nil_r. reflexivity. }
  unfold main, resolve. destruct schema_file as [given |].
  - apply Hwith.
  - destruct (infer_schema_path (Path_of yaml_file)) as [[schema_path |] | e].
    + apply Hwith.
    + reflexivity.
    + reflexivity.
Qed.

End Unfolding.

(** ** What a run reads, prints and calls *)

Section Runs.

Import YamlSchemaValidator.

Variable open_read : string -> open_result.
Variable json_load : string -> parse_result.
Variable yaml_safe_load : string -> parse_result.
Variable engine : value -> value -> engine_result.

Lemma value_of_pair {A : Type} (a : A) (events : list event) :
  value_of (a, events) = a.
Proof. reflexivity. Qed.

Lemma trace_of_pair {A : Type} (a : A) (events : list event) :
  trace_of (a, events) = events.
Proof. reflexivity. Qed.

(** The calls [validate] makes: one when the document passes the guard. *)
Lemma validate_engine_calls (self : t) :
  engine_calls (validate engine self) =
  if truthy (data self) then [EngineCall (data self) (schema self)] else [].
Proof.
  unfold engine_calls.
  destruct (truthy (data self)) eqn:Htruthy.
  - rewrite (validate_truthy engine self Htruthy).
    destruct (engine (data self) (schema self)) as [| message path schema_path | message];
      try reflexivity.
    destruct (nonempty schema_path); reflexivity.
  - rewrite (validate_falsy engine self Htruthy). reflexivity.
Qed.

Lemma engine_calls_app (xs ys : list event) :
  filter is_engine_call (xs ++ ys) = filter is_engine_call xs ++ filter is_engine_call ys.
Proof. apply filter_app. Qed.

Lemma report_footer_no_call (valid : bool) (self : t) :
  filter is_engine_call (report_footer valid self) = [].
Proof. destruct valid; reflexivity. Qed.

(** The calls of [validate_and_report]: none, or one with the document the
    file parsed to. *)
Lemma validate_and_report_engine_calls (self : t) :
  engine_calls (validate_and_report open_read yaml_safe_load engine self) = [] \/
  exists text doc,
    open_read (Path_str (yaml_file self)) = Content text /\
    yaml_safe_load text = Parsed doc /\
    truthy doc = true /\
    engine_calls (validate_and_report open_read yaml_safe_load engine self) =
      [EngineCall doc (schema self)].
Proof.
  rewrite validate_and_report_unfold. cbv zeta.
  destruct (load_yaml_cases open_read yaml_safe_load self)
    as [(text & doc & Hopen & Hparse & ->) | (line & -> & _ & _)].
  - pose proof (validate_engine_calls (New (yaml_file self) doc (schema self))) as Hcalls.
    unfold engine_calls in *.
    rewrite !value_of_pair. cbn [fst snd]. rewrite !trace_of_pair.
    rewrite !engine_calls_app, report_footer_no_call, app_nil_r, Hcalls.
    cbn [report_header filter is_engine_call app data schema].
    destruct (truthy doc) eqn:Htruthy.
    + right. exists text, doc. auto.
    + left. reflexivity.
  - left. reflexivity.
Qed.

(** X1: [load_json_schema] answers [True] exactly when the file opens and
    its text parses as JSON, and then hands back the parsed value as it is,
    whatever it is, with nothing printed; in every other case it answers
    [(False, None)] and prints exactly one line. *)
Theorem load_json_schema_outcome (path_ : Path) :
  let loading := load_json_schema open_read json_load path_ in
  (fst (value_of loading) = true <->
   exists text,
     open_read (Path_str path_) = Content text /\
     json_load text = Parsed (snd (value_of loading))) /\
  (fst (value_of loading) = true -> trace_of loading = []) /\
  (fst (value_of loading) = false ->
   snd (value_of loading) = VNull /\
   exists line, trace_of loading = [Print line]).
Proof.
  cbv zeta.
  destruct (load_json_schema_cases open_read json_load path_)
    as [(text & js & Hopen & Hparse & ->) | (line & -> & _ & Hnone)];
    rewrite !value_of_pair, !trace_of_pair; cbn [fst snd].
  - split; [| split].
    + split; [intros _; exists text; auto | reflexivity].
    + reflexivity.
    + discriminate.
  - split; [| split].
    + split; [discriminate |].
      intros (text & Hopen & Hparse). exfalso. exact (Hnone _ _ Hopen Hparse).
    + discriminate.
    + intros _. split; [reflexivity | exists line; reflexivity].
Qed.


(** X3: what [validate_and_report] answers and prints does not depend on
    the data the instance held before: a document left by an earlier load
    is never validated in place of the file. *)
Theorem validate_and_report_ignores_loaded_data
    (file : Path) (before before' schema_object : value) :
  fst (value_of (validate_and_report open_read yaml_safe_load engine
                   (New file before schema_object))) =
  fst (value_of (validate_and_report open_read yaml_safe_load engine
                   (New file before' schema_object))) /\
  trace_of (validate_and_report open_read yaml_safe_load engine
              (New file before schema_object)) =
  trace_of (validate_and_report open_read yaml_safe_load engine
              (New file before' schema_object)).
Proof.
  unfold validate_and_report, load_yaml. cbn [yaml_file schema].
  destruct (open_read (Path_str file)) as [| reason | text];
    [split; reflexivity | split; reflexivity |].
  destruct (yaml_safe_load text) as [doc | reason | reason];
    [| split; reflexivity | split; reflexivity].
  cbn [bind ret print fst snd app negb].
  destruct (validate engine (New file doc schema_object)) as [valid events].
  destruct valid; split; reflexivity.
Qed.

(** X5: [validate] never fails silently: when it answers [True] it prints
    nothing, and when it answers [False] it prints at least one line and at
    most three. *)
Theorem validate_never_fails_silently (self : t) :
  let checked := validate engine self in
  (value_of checked = true -> printed checked = []) /\
  (value_of checked = false ->
   1 <= List.length (printed checked) <= 3).
Proof.
  cbv zeta. destruct (truthy (data self)) eqn:Htruthy.
  - rewrite (validate_truthy engine self Htruthy).
    destruct (engine (data self) (schema self)) as [| message path schema_path | message].
    + split; [reflexivity | discriminate].
    + split; [discriminate |]. intros _.
      destruct (nonempty schema_path); simpl; lia.
    + split; [discriminate |]. intros _. simpl. lia.
  - rewrite (validate_falsy engine self Htruthy).
    split; [discriminate |]. intros _. simpl. lia.
Qed.

(** X4: a run of [main] enters the engine at most once, and only with the
    value the document file parsed to, which passes the guard, and the
    value the schema file of the run parsed to. *)
Theorem engine_entered_once_with_loaded_files
    (yaml_file : string) (schema_file : option string) :
  let run := main open_read json_load yaml_safe_load engine yaml_file schema_file in
  List.length (engine_calls run) <= 1 /\
  forall doc schema_object,
    In (EngineCall doc schema_object) (trace_of run) ->
    truthy doc = true /\
    (exists text,
       open_read (Path_str (Path_of yaml_file)) = Content text /\
       yaml_safe_load text = Parsed doc) /\
    (exists schema_path text,
       resolve yaml_file schema_file = Return (Some schema_path) /\
       open_read (Path_str schema_path) = Content text /\
       json_load text = Parsed schema_object).
Proof.
  cbv zeta.
  assert (Hin : forall (m : IO outcome) doc schema_object,
             In (EngineCall doc schema_object) (trace_of m) ->
             In (EngineCall doc schema_object) (engine_calls m)).
  { intros m doc schema_object H. unfold engine_calls.
    apply filter_In. split; [exact H | reflexivity]. }
  assert (Hcalls :
    engine_calls (main open_read json_load yaml_safe_load engine yaml_file schema_file) = [] \/
    exists doc schema_object,
      engine_calls (main open_read json_load yaml_safe_load engine yaml_file schema_file)
        = [EngineCall doc schema_object] /\
      truthy doc = true /\
      (exists text,
         open_read (Path_str (Path_of yaml_file)) = Content text /\
         yaml_safe_load text = Parsed doc) /\
      (exists schema_path text,
         resolve yaml_file schema_file = Return (Some schema_path) /\
         open_read (Path_str schema_path) = Content text /\
         json_load text = Parsed schema_object)).
  { rewrite main_unfold.
    destruct (resolve yaml_file schema_file) as [[schema_path |] | e] eqn:Hresolve;
      [| left; reflexivity | left; reflexivity].
    cbv zeta.
    destruct (load_json_schema_cases open_read json_load schema_path)
      as [(stext & js & Hopen & Hparse & ->) | (line & -> & _ & _)];
      rewrite !value_of_pair; cbn [fst snd]; [| left; reflexivity].
    unfold engine_calls. rewrite !trace_of_pair. cbn [app].
    destruct (validate_and_report_engine_calls
                (init (Path_of yaml_file) js))
      as [Hnone | (text & doc & Ht & Hp & Htruthy & Hone)];
      unfold engine_calls in *.
    - left. exact Hnone.
    - right. exists doc, js. split; [exact Hone |]. split; [exact Htruthy |].
      split; [exists text; auto | exists schema_path, stext; auto]. }
  destruct Hcalls as [Hnone | (doc & js & Hone & Htruthy & Hdoc & Hschema)].
  - rewrite Hnone. split; [simpl; lia |].
    intros doc schema_object H. apply Hin in H. rewrite Hnone in H. destruct H.
  - rewrite Hone. split; [simpl; lia |].
    intros doc' schema' H. apply Hin in H. rewrite Hone in H.
    destruct H as [H | []]. injection H as <- <-. auto.
Qed.

End Runs.

(** ** The verdict on standard output *)

Section Verdict.

Import YamlSchemaValidator.

Variable open_read : string -> open_result.
Variable json_load : string -> parse_result.
Variable yaml_safe_load : string -> parse_result.
Variable engine : value -> value -> engine_result.

(** No line [validate] prints is the line of success. *)
Lemma validate_not_success (self : t) :
  ~ In "✓ Validation successful" (printed (validate engine self)).
Proof.
  destruct (truthy (data self)) eqn:Htruthy.
  - rewrite (validate_truthy engine self Htruthy).
    destruct (engine (data self) (schema self)) as [| message path schema_path | message].
    + intros [].
    + destruct (nonempty schema_path); simpl; intuition discriminate.
    + simpl. intuition discriminate.
  - rewrite (validate_falsy engine self Htruthy). simpl. intuition discriminate.
Qed.

(** [validate_and_report] prints the line of success exactly when it
    answers [True]. *)
Lemma success_line_iff_valid (self : t) :
  In "✓ Validation successful"
     (printed (validate_and_report open_read yaml_safe_load engine self)) <->
  fst (value_of (validate_and_report open_read yaml_safe_load engine self)) = true.
Proof.
  rewrite validate_and_report_unfold. cbv zeta.
  destruct (load_yaml_cases open_read yaml_safe_load self)
    as [(text & doc & _ & _ & ->) | (line & -> & Hline & _)];
    rewrite !value_of_pair; cbn [fst snd]; rewrite ?value_of_pair; cbn [fst].
  - rewrite trace_of_pair. cbn [app].
    set (loaded := New (yaml_file self) doc (schema self)).
    pose proof (validate_not_success loaded) as Hnot.
    unfold printed in *. rewrite trace_of_pair.
    rewrite !flat_map_app. cbn [report_header flat_map app].
    destruct (value_of (validate engine loaded)).
    + split; [reflexivity |]. intros _.
      right. right. apply in_or_app. right. left. reflexivity.
    + split; [| discriminate]. intros [H | [H | H]]; try discriminate.
      apply in_app_or in H. destruct H as [H | H]; [contradiction |].
      simpl in H. destruct H as [H | []]. discriminate.
  - unfold printed. rewrite !trace_of_pair. simpl.
    split; [| discriminate].
    intros [H | [H | [H | [H | []]]]]; try discriminate.
    subst line. discriminate.
Qed.

(** X6: a run of [main] ends with status 0 exactly when it prints the line
    [✓ Validation successful] on standard output. *)
Theorem exit_0_iff_success_printed
    (yaml_file : string) (schema_file : option string) :
  value_of (main open_read json_load yaml_safe_load engine yaml_file schema_file)
    = Exit 0 <->
  In "✓ Validation successful"
     (printed (main open_read json_load yaml_safe_load engine yaml_file schema_file)).
Proof.
  rewrite main_unfold.
  destruct (resolve yaml_file schema_file) as [[schema_path |] | e].
  - cbv zeta.
    destruct (load_json_schema_cases open_read json_load schema_path)
      as [(text & js & _ & _ & ->) | (line & -> & Hline & _)];
      rewrite !value_of_pair; cbn [fst snd].
    + rewrite !trace_of_pair. cbn [app].
      pose proof (success_line_iff_valid (init (Path_of yaml_file) js)) as Hiff.
      unfold printed in *. rewrite trace_of_pair, value_of_pair.
      destruct (fst (value_of (validate_and_report open_read yaml_safe_load engine
                                 (init (Path_of yaml_file) js)))).
      * split; [intros _; apply Hiff; reflexivity | reflexivity].
      * split; [discriminate |]. intros H. apply Hiff in H. discriminate.
    + unfold printed. rewrite !trace_of_pair, value_of_pair. simpl.
      split; [discriminate |]. intros [H | []]. subst line. discriminate.
  - split; [discriminate | intros []].
  - split; [discriminate | intros []].
Qed.


End Verdict.

(** ** Runs that stop early *)

(** The three ways [infer_schema_path] can go, by the first anchor. *)
Lemma infer_schema_path_cases (parts : Path) :
  (contains "samples" parts = false /\ infer_schema_path parts = Return None) \/
  (exists pre,
     parts = pre ++ ["samples"] /\ contains "samples" pre = false /\
     infer_schema_path parts = Raise IndexError) \/
  (exists pre category post,
     parts = pre ++ "samples" :: category :: post /\
     contains "samples" pre = false /\
     infer_schema_path parts = Return (Some (Path_of (schema_name category)))).
Proof.
  destruct (contains "samples" parts) eqn:Hin.
  - destruct (first_occurrence _ _ Hin) as (pre & rest & -> & Hpre).
    right. destruct rest as [| category post].
    + left. exists pre. split; [reflexivity |]. split; [exact Hpre |].
      apply (infer_schema_path_at_anchor pre [] Hpre).
    + right. exists pre, category, post. split; [reflexivity |]. split; [exact Hpre |].
      apply (infer_schema_path_at_anchor pre (category :: post) Hpre).
  - left. split; [reflexivity | apply infer_schema_path_no_anchor; exact Hin].
Qed.

(** The inferred path reads back as the name it was built from. *)
Lemma schema_name_round_trip (category : string) :
  is_component category = true ->
  Path_str (Path_of (schema_name category)) = schema_name category.
Proof.
  intros H. rewrite (schema_name_parts category H). reflexivity.
Qed.

Section EarlyStops.

Import YamlSchemaValidator.

Variable open_read : string -> open_result.
Variable json_load : string -> parse_result.
Variable yaml_safe_load : string -> parse_result.
Variable engine : value -> value -> engine_result.




End EarlyStops.

(** ** Paths as the program builds them *)

Lemma split_on_free (sep : ascii) (s : string) :
  Forall (fun part => occurs sep part = false) (split_on sep s).
Proof.
  induction s as [| c s IH]; simpl.
  - constructor; [reflexivity | constructor].
  - destruct (Ascii.eqb c sep) eqn:Hc.
    + constructor; [reflexivity | exact IH].
    + destruct (split_on sep s) as [| p ps].
      * constructor; [simpl; rewrite Hc; reflexivity | constructor].
      * inversion IH as [| ? ? Hp Hps]; subst.
        constructor; [simpl; rewrite Hc, Hp; reflexivity | exact Hps].
Qed.

(** Behind its first part, a path made from a string holds nothing but
    plain components. *)
Lemma Path_of_components (s : string) :
  Forall (fun part => is_component part = true) (tl (Path_of s)).
Proof.
  assert (Htail : Forall (fun part => is_component part = true)
            (filter (fun x => negb (x =? "") && negb (x =? "."))
               (split_on "/" s))).
  { apply Forall_forall. intros part Hin. apply filter_In in Hin.
    destruct Hin as [Hin Hkeep].
    pose proof (split_on_free "/" s) as Hfree.
    rewrite Forall_forall in Hfree. specialize (Hfree part Hin).
    unfold is_component. rewrite Hkeep, Hfree. reflexivity. }
  unfold Path_of. destruct (path_root s).
  - destruct (filter _ _) as [| first rest]; [constructor |].
    inversion Htail; assumption.
  - exact Htail.
Qed.

Lemma component_after (s : string) (pre post : Path) (a next : string) :
  Path_of s = pre ++ a :: next :: post -> is_component next = true.
Proof.
  intros H. pose proof (Path_of_components s) as Hall. rewrite H in Hall.
  rewrite Forall_forall in Hall. apply Hall.
  destruct pre as [| p pre]; simpl.
  - left. reflexivity.
  - apply in_or_app. right. right. left. reflexivity.
Qed.

Section Inferred.

Import YamlSchemaValidator.

Variable open_read : string -> open_result.
Variable json_load : string -> parse_result.
Variable yaml_safe_load : string -> parse_result.
Variable engine : value -> value -> engine_result.

(** X10: whatever the document path given on the command line, absolute or
    relative, a schema path inferred from it has exactly the three parts
    [schemas], [X] and [X.schema.json], where [X] is the component behind
    the first [samples] component, and reads [schemas/X/X.schema.json]: it
    is relative to the working directory, not to the place of the
    document. *)
Theorem inferred_path_is_relative (yaml_file : string) (schema_path : Path) :
  infer_schema_path (Path_of yaml_file) = Return (Some schema_path) ->
  exists pre X post,
    Path_of yaml_file = pre ++ "samples" :: X :: post /\
    contains "samples" pre = false /\
    schema_path = ["schemas"; X; (X ++ ".schema.json")%string] /\
    Path_str schema_path = ("schemas/" ++ X ++ "/" ++ X ++ ".schema.json")%string.
Proof.
  intros H.
  destruct (infer_schema_path_cases (Path_of yaml_file))
    as [[_ Hnone] | [(pre & _ & _ & Hraise) | (pre & X & post & Hparts & Hpre & Hsome)]].
  - rewrite Hnone in H. discriminate.
  - rewrite Hraise in H. discriminate.
  - rewrite Hsome in H. injection H as <-.
    pose proof (component_after _ _ _ _ _ Hparts) as Hcomponent.
    exists pre, X, post. split; [exact Hparts |]. split; [exact Hpre |].
    split; [apply schema_name_parts; exact Hcomponent |].
    apply schema_name_round_trip. exact Hcomponent.
Qed.

(** X11: when the schema does not load, the run of [main] ends with
    status 1 after the one line of the schema loader: the document is not
    opened, no header is printed, and neither the YAML parser nor the
    engine has a part in the run. *)
Theorem schema_failure_stops_the_run
    (yaml_file : string) (schema_file : option string) (schema_path : Path)
    (other_parser : string -> parse_result)
    (other_engine : value -> value -> engine_result) :
  resolve yaml_file schema_file = Return (Some schema_path) ->
  fst (value_of (load_json_schema open_read json_load schema_path)) = false ->
  main open_read json_load other_parser other_engine yaml_file schema_file =
    (Exit 1, trace_of (load_json_schema open_read json_load schema_path)) /\
  exists line,
    trace_of (load_json_schema open_read json_load schema_path) = [Print line].
Proof.
  intros Hresolve Hfail. rewrite main_unfold, Hresolve. cbv zeta.
  rewrite Hfail. split; [reflexivity |].
  destruct (load_json_schema_cases open_read json_load schema_path)
    as [(text & js & _ & _ & Heq) | (line & Heq & _ & _)];
    rewrite Heq in *.
  - discriminate.
  - exists line. reflexivity.
Qed.

(** X12: with no schema given, a document under [samples/X] whose schema
    file is missing ends the run with status 1 and the single line
    [Error: Schema file 'schemas/X/X.schema.json' not found]. *)
Theorem inferred_schema_not_found
    (yaml_file : string) (pre post : Path) (X : string) :
  Path_of yaml_file = pre ++ "samples" :: X :: post ->
  contains "samples" pre = false ->
  open_read ("schemas/" ++ X ++ "/" ++ X ++ ".schema.json") = FileNotFound ->
  main open_read json_load yaml_safe_load engine yaml_file None =
    (Exit 1,
     [Print ("Error: Schema file 'schemas/" ++ X ++ "/" ++ X
               ++ ".schema.json' not found")]).
Proof.
  intros Hparts Hpre Hmissing.
  pose proof (component_after _ _ _ _ _ Hparts) as Hcomponent.
  assert (Hload :
    load_json_schema open_read json_load (Path_of (schema_name X)) =
    ((false, VNull),
     [Print ("Error: Schema file '" ++ schema_name X ++ "' not found")])).
  { unfold load_json_schema. rewrite (schema_name_round_trip X Hcomponent).
    change (open_read (schema_name X))
      with (open_read ("schemas/" ++ X ++ "/" ++ X ++ ".schema.json")).
    rewrite Hmissing. reflexivity. }
  rewrite main_unfold. unfold resolve.
  rewrite Hparts, (infer_schema_path_at_anchor _ _ Hpre). cbv zeta.
  rewrite Hload, value_of_pair, trace_of_pair. cbn [fst].
  unfold schema_name. rewrite !string_app_assoc. reflexivity.
Qed.

(** X13: a run of [main] reads the file system at two names only, the
    document path and the schema path of the run: two file systems that
    agree on these give the same run. *)
Theorem main_reads_two_files
    (other_read : string -> open_result)
    (yaml_file : string) (schema_file : option string) :
  other_read (Path_str (Path_of yaml_file)) = open_read (Path_str (Path_of yaml_file)) ->
  (forall schema_path,
     resolve yaml_file schema_file = Return (Some schema_path) ->
     other_read (Path_str schema_path) = open_read (Path_str schema_path)) ->
  main other_read json_load yaml_safe_load engine yaml_file schema_file =
  main open_read json_load yaml_safe_load engine yaml_file schema_file.
Proof.
  intros Hdoc Hschema. rewrite !main_unfold.
  destruct (resolve yaml_file schema_file) as [[schema_path |] | e];
    [| reflexivity | reflexivity].
  assert (Hload : load_json_schema other_read json_load schema_path =
                  load_json_schema open_read json_load schema_path).
  { unfold load_json_schema. rewrite (Hschema schema_path eq_refl). reflexivity. }
  assert (Hreport : forall schema_object,
    validate_and_report other_read yaml_safe_load engine
      (init (Path_of yaml_file) schema_object) =
    validate_and_report open_read yaml_safe_load engine
      (init (Path_of yaml_file) schema_object)).
  { intros schema_object. unfold validate_and_report, load_yaml.
    cbn [init YamlSchemaValidator.yaml_file]. rewrite Hdoc. reflexivity. }
  cbv zeta. rewrite Hload, Hreport. reflexivity.
Qed.

End Inferred.

(** ** The whole run *)

Section WholeRun.

Import YamlSchemaValidator.

Variable open_read : string -> open_result.
Variable json_load : string -> parse_result.
Variable yaml_safe_load : string -> parse_result.
Variable engine : value -> value -> engine_result.

(** X17: a run of [main] ends with status 0 exactly when a schema path is
    given or inferred, the schema file opens and parses, the document file
    opens and parses to a document that passes the guard on [self.data],
    and the engine accepts that document against that schema. *)
Theorem main_exit_0_iff (yaml_file : string) (schema_file : option string) :
  value_of (main open_read json_load yaml_safe_load engine yaml_file schema_file)
    = Exit 0 <->
  exists schema_path schema_text schema_object text doc,
    resolve yaml_file schema_file = Return (Some schema_path) /\
    open_read (Path_str schema_path) = Content schema_text /\
    json_load schema_text = Parsed schema_object /\
    open_read (Path_str (Path_of yaml_file)) = Content text /\
    yaml_safe_load text = Parsed doc /\
    truthy doc = true /\
    engine doc schema_object = Passed.
Proof.
  assert (Hreport : forall self,
    fst (value_of (validate_and_report open_read yaml_safe_load engine self)) = true <->
    exists text doc,
      open_read (Path_str (YamlSchemaValidator.yaml_file self)) = Content text /\
      yaml_safe_load text = Parsed doc /\
      truthy doc = true /\ engine doc (schema self) = Passed).
  { intros self. rewrite validate_and_report_unfold. cbv zeta.
    destruct (load_yaml_cases open_read yaml_safe_load self)
      as [(text & doc & Ho & Hp & ->) | (line & -> & _ & Hnone)];
      rewrite !value_of_pair; cbn [fst snd].
    - rewrite value_of_pair. cbn [fst]. rewrite validate_true_iff. cbn [data schema].
      split.
      + intros [Ht He]. exists text, doc. auto.
      + intros (text' & doc' & Ho' & Hp' & Ht & He).
        rewrite Ho in Ho'. injection Ho' as <-.
        rewrite Hp in Hp'. injection Hp' as <-. auto.
    - split; [discriminate |].
      intros (text & doc & Ho & Hp & _). exfalso. exact (Hnone _ _ Ho Hp). }
  rewrite main_unfold.
  destruct (resolve yaml_file schema_file) as [[schema_path |] | e].
  - cbv zeta.
    destruct (load_json_schema_cases open_read json_load schema_path)
      as [(stext & js & Ho & Hp & ->) | (line & -> & _ & Hnone)];
      rewrite !value_of_pair; cbn [fst snd].
    + rewrite value_of_pair.
      specialize (Hreport (init (Path_of yaml_file) js)).
      cbn [init YamlSchemaValidator.yaml_file schema] in Hreport.
      destruct (fst (value_of (validate_and_report open_read yaml_safe_load engine
                                 (init (Path_of yaml_file) js)))).
      * split; [intros _ | reflexivity].
        destruct (proj1 Hreport eq_refl) as (text & doc & Hd & Hy & Ht & He).
        exists schema_path, stext, js, text, doc. auto 10.
      * split; [discriminate |].
        intros (sp & stext' & js' & text & doc & Hr & Ho' & Hp' & Hd & Hy & Ht & He).
        injection Hr as <-. rewrite Ho in Ho'. injection Ho' as <-.
        rewrite Hp in Hp'. injection Hp' as <-.
        assert (Hvalid : false = true)
          by (apply Hreport; exists text, doc; auto).
        discriminate.
    + rewrite value_of_pair. split; [discriminate |].
      intros (sp & stext & js & _ & _ & Hr & Ho & Hp & _).
      injection Hr as <-. exfalso. exact (Hnone _ _ Ho Hp).
  - split; [discriminate |]. intros (sp & ? & ? & ? & ? & Hr & _). discriminate.
  - split; [discriminate |]. intros (sp & ? & ? & ? & ? & Hr & _). discriminate.
Qed.

End WholeRun.

(** ** Sample runs of the added properties *)

(** An absolute document path: the inferred schema path stays relative. *)
Lemma inferred_path_is_relative_witness :
  exists pre X post,
    Path_of "/home/ci/samples/test-case/gsma_4.4.2.2_TC.yml" =
      pre ++ "samples" :: X :: post /\
    contains "samples" pre = false /\
    ["schemas"; "test-case"; "test-case.schema.json"] =
      ["schemas"; X; (X ++ ".schema.json")%string] /\
    Path_str ["schemas"; "test-case"; "test-case.schema.json"] =
      ("schemas/" ++ X ++ "/" ++ X ++ ".schema.json")%string.
Proof.
  exact (inferred_path_is_relative
           "/home/ci/samples/test-case/gsma_4.4.2.2_TC.yml"
           ["schemas"; "test-case"; "test-case.schema.json"] eq_refl).
Defined.

(** A schema named on the command line that is not there. *)
Lemma schema_failure_stops_the_run_witness :
  main Worlds.empty_disk Worlds.parse_nothing
       (Worlds.parse_as Samples.alice) Worlds.accept_all
       "doc.yml" (Some "missing.json") =
  (Exit 1, [Print "Error: Schema file 'missing.json' not found"]).
Proof.
  exact (proj1
    (schema_failure_stops_the_run Worlds.empty_disk Worlds.parse_nothing
       "doc.yml" (Some "missing.json") ["missing.json"]
       (Worlds.parse_as Samples.alice) Worlds.accept_all eq_refl eq_refl)).
Defined.

(** A document under [samples/test-case] on a disk without schemas. *)
Lemma inferred_schema_not_found_witness :
  main Worlds.empty_disk Worlds.parse_nothing
       (Worlds.parse_as Samples.alice) Worlds.accept_all
       "samples/test-case/gsma_4.4.2.2_TC.yml" None =
  (Exit 1,
   [Print "Error: Schema file 'schemas/test-case/test-case.schema.json' not found"]).
Proof.
  exact (inferred_schema_not_found Worlds.empty_disk Worlds.parse_nothing
           (Worlds.parse_as Samples.alice) Worlds.accept_all
           "samples/test-case/gsma_4.4.2.2_TC.yml" [] ["gsma_4.4.2.2_TC.yml"]
           "test-case" eq_refl eq_refl eq_refl).
Defined.

(** Two disks that differ everywhere but at the document and the schema. *)
Lemma main_reads_two_files_witness :
  main (Worlds.two_files (OpenFailed "Permission denied"))
       (Worlds.parse_as Samples.person_schema) (Worlds.parse_as Samples.alice)
       Worlds.accept_all "doc.yml" (Some "person.schema.json") =
  main (Worlds.two_files FileNotFound)
       (Worlds.parse_as Samples.person_schema) (Worlds.parse_as Samples.alice)
       Worlds.accept_all "doc.yml" (Some "person.schema.json").
Proof.
  apply (main_reads_two_files (Worlds.two_files FileNotFound)
           (Worlds.parse_as Samples.person_schema) (Worlds.parse_as Samples.alice)
           Worlds.accept_all (Worlds.two_files (OpenFailed "Permission denied"))
           "doc.yml" (Some "person.schema.json")).
  - reflexivity.
  - intros schema_path H. injection H as <-. reflexivity.
Defined.

(** A truthy document and an engine that finds the schema malformed. *)
Lemma schema_error_report_witness :
  printed (YamlSchemaValidator.validate Worlds.reject_schema
             (YamlSchemaValidator.New ["doc.yml"] Samples.alice Samples.bogus_type)) =
  ["Schema Error: 'bogus' is not a valid type"].
Proof.
  exact (proj1 (proj2
    (schema_error_report Worlds.reject_schema
       (YamlSchemaValidator.New ["doc.yml"] Samples.alice Samples.bogus_type)
       "'bogus' is not a valid type" eq_refl eq_refl))).
Defined.

(** A document that is not on the disk. *)
Lemma load_failure_never_validated_witness :
  fst (value_of (YamlSchemaValidator.validate_and_report
                   Worlds.empty_disk (Worlds.parse_as Samples.alice) Worlds.accept_all
                   (YamlSchemaValidator.init ["doc.yml"] Samples.person_schema))) = false /\
  engine_called (YamlSchemaValidator.validate_and_report
                   Worlds.empty_disk (Worlds.parse_as Samples.alice) Worlds.accept_all
                   (YamlSchemaValidator.init ["doc.yml"] Samples.person_schema)) = false.
Proof.
  exact (load_failure_never_validated Worlds.empty_disk
           (Worlds.parse_as Samples.alice) Worlds.accept_all
           (YamlSchemaValidator.init ["doc.yml"] Samples.person_schema) eq_refl).
Defined.
